(** * seawater: UNESCO 1983 / EOS-80 equation of state, Go package [seawater]

    A shallow embedding of [seawater.go] and of the rounding helpers of
    [seawater_test.go].

    Go's [float64] is IEEE 754 binary64 with round-to-nearest-even, which is
    exactly Rocq's primitive [float]: [+ - * /], [math.Sqrt] and [math.Abs]
    are the primitive operations, so every definition below evaluates to the
    very bits the Go program produces.  Operations are rounded one by one,
    as the gc compiler does on amd64 (the language lets other targets fuse
    [x*y + z]), and a division by zero yields an infinity or NaN, as gc
    does (the language leaves a run-time panic to the implementation).
    Untyped Go constants are exact and are rounded once when they meet a
    [float64] operand, which is what a Rocq float literal does.  [math.Sin]
    and [math.Pow] are not IEEE operations; the functions that call them
    take them as parameters.

    Two equalities on floats are used.  Rocq's [=] is identity of the value
    (one NaN, [+0] and [-0] distinct).  Go's [==] is [F64.go_eq], the IEEE
    comparison: NaN differs from everything, itself included, and
    [-0 == +0]. *)

From Stdlib Require Import ZArith Bool List String Ascii Lia.
From Stdlib Require Import Floats.
Import ListNotations.

Set Warnings "-inexact-float".

Local Open Scope float_scope.

(** ** The float64 layer *)

Module F64.

(** Go's [x == y] on float64. *)
Definition go_eq (x y : float) : bool := (x =? y).

(** Go's [x <= y] on float64. *)
Definition go_le (x y : float) : bool := (x <=? y).

(** Go's [x < y] on float64. *)
Definition go_lt (x y : float) : bool := (x <? y).

(** [int(x)]: conversion of a float64 to an integer truncates towards zero.
    (Go leaves the result open when the value does not fit the integer
    type or is not a number; the model answers 0 for NaN and infinities.) *)
Definition to_int (x : float) : Z :=
  match Prim2SF x with
  | S754_finite s m e =>
      let mag := match e with
                 | Zneg k => Z.shiftr (Zpos m) (Zpos k)
                 | _ => Z.shiftl (Zpos m) e
                 end in
      if s then Z.opp mag else mag
  | _ => 0%Z
  end.

(** [float64(n)] for an integer [n]: the nearest float64. *)
Definition of_int (n : Z) : float :=
  SF2Prim (binary_normalize prec emax n 0 false).

(** [math.Copysign(x, y)]: magnitude of [x], sign of [y]. *)
Definition copysign (x y : float) : float :=
  if get_sign y then - (abs x) else abs x.

(** [x] and [y] are the same number: identical, or two zeros. *)
Definition same_number (x y : float) : Prop :=
  x = y \/ (is_zero x = true /\ is_zero y = true).

(** [same_number] read on specification floats. *)
Definition sf_same (a b : spec_float) : Prop :=
  a = b \/ match a, b with S754_zero _, S754_zero _ => True | _, _ => False end.

End F64.

(** ** Values of Go's [error] interface built by [errors.New] *)

Inductive error : Type :=
| errors_New (text : string).

Definition dquote : string := String (ascii_of_nat 34) EmptyString.

(** ** seawater.go *)

(** [sw_smow]: density of standard mean ocean water. *)
Definition sw_smow (T : float) : float :=
  let a0 := 999.842594 in
  let a1 := 6.793952e-2 in
  let a2 := -9.095290e-3 in
  let a3 := 1.001685e-4 in
  let a4 := -1.120083e-6 in
  let a5 := 6.536332e-9 in
  let dens := a0 + (a1+(a2+(a3+(a4+a5*T)*T)*T)*T)*T in
  dens.

(** [sw_T68conv]: ITS-90 to IPTS-68. *)
Definition sw_T68conv (T90 : float) : float :=
  T90 * 1.00024.

(** [sw_T90conv]: IPTS-68 or IPTS-48 to ITS-90.  The result type is a lone
    [float64].  [var T90 float64] starts at the zero value; the last branch
    is the expression statement [errors.New(...)], whose value is dropped. *)
Definition sw_T90conv (t : float) (t_type : string) : float :=
  let T90 := 0 in
  if String.eqb t_type "T68" then
    let T90 := t / 1.00024 in
    T90
  else if String.eqb t_type "T48" then
    let T90 := (t - 4.4e-6*t*(100-t)) / 1.00024 in
    T90
  else
    let _ := errors_New ("Unrecognized temperature type.  Try "
                         ++ dquote ++ "T68" ++ dquote ++ " or "
                         ++ dquote ++ "T48" ++ dquote) in
    T90.

(** [sw_dens0]: density of sea water at atmospheric pressure. *)
Definition sw_dens0 (S T : float) : float :=
  let b0 := 8.24493e-1 in
  let b1 := -4.0899e-3 in
  let b2 := 7.6438e-5 in
  let b3 := -8.2467e-7 in
  let b4 := 5.3875e-9 in
  let c0 := -5.72466e-3 in
  let c1 := 1.0227e-4 in
  let c2 := -1.6546e-6 in
  let d0 := 4.8314e-4 in
  let dens := sw_smow T + (b0+(b1+(b2+(b3+b4*T)*T)*T)*T)*S
              + (c0+(c1+c2*T)*T)*S*sqrt S + d0*S*S in
  dens.

(** [sw_seck]: secant bulk modulus, in bars. *)
Definition sw_seck (S T P : float) : float :=
  let P := P / 10.0 in
  let h3 := -5.77905E-7 in
  let h2 := 1.16092E-4 in
  let h1 := 1.43713E-3 in
  let h0 := 3.239908 in
  let AW := h0 + (h1+(h2+h3*T)*T)*T in
  let k2 := 5.2787E-8 in
  let k1 := -6.12293E-6 in
  let k0 := 8.50935E-5 in
  let BW := k0 + (k1+k2*T)*T in
  let e4 := -5.155288E-5 in
  let e3 := 1.360477E-2 in
  let e2 := -2.327105 in
  let e1 := 148.4206 in
  let e0 := 19652.21 in
  let KW := e0 + (e1+(e2+(e3+e4*T)*T)*T)*T in
  let j0 := 1.91075E-4 in
  let i2 := -1.6078E-6 in
  let i1 := -1.0981E-5 in
  let i0 := 2.2838E-3 in
  let SR := sqrt S in
  let A := AW + (i0+(i1+i2*T)*T+j0*SR)*S in
  let m2 := 9.1697E-10 in
  let m1 := 2.0816E-8 in
  let m0 := -9.9348E-7 in
  let B := BW + (m0+(m1+m2*T)*T)*S in
  let f3 := -6.1670E-5 in
  let f2 := 1.09987E-2 in
  let f1 := -0.603459 in
  let f0 := 54.6746 in
  let g2 := -5.3009E-4 in
  let g1 := 1.6483E-2 in
  let g0 := 7.944E-2 in
  let K0 := KW + (f0+(f1+(f2+f3*T)*T)*T+
                  (g0+(g1+g2*T)*T)*SR)*S in
  let K := K0 + (A+B*P)*P in
  K.

(** [sw_svel]: sound velocity. *)
Definition sw_svel (S T P : float) : float :=
  let P := P / 10 in
  (* eqn 34 p.46 *)
  let c00 := 1402.388 in
  let c01 := 5.03711 in
  let c02 := -5.80852e-2 in
  let c03 := 3.3420e-4 in
  let c04 := -1.47800e-6 in
  let c05 := 3.1464e-9 in
  let c10 := 0.153563 in
  let c11 := 6.8982e-4 in
  let c12 := -8.1788e-6 in
  let c13 := 1.3621e-7 in
  let c14 := -6.1185e-10 in
  let c20 := 3.1260e-5 in
  let c21 := -1.7107e-6 in
  let c22 := 2.5974e-8 in
  let c23 := -2.5335e-10 in
  let c24 := 1.0405e-12 in
  let c30 := -9.7729e-9 in
  let c31 := 3.8504e-10 in
  let c32 := -2.3643e-12 in
  let Cw := c00 + c01*T + c02*T*T + c03*T*T*T + c04*T*T*T*T + c05*T*T*T*T*T +
            (c10+c11*T+c12*T*T+c13*T*T*T+c14*T*T*T*T)*P +
            (c20+c21*T+c22*T*T+c23*T*T*T+c24*T*T*T*T)*
              P*P + (c30+c31*T+c32*T*T)*P*P*P in
  (* eqn 35 p.47 *)
  let a00 := 1.389 in
  let a01 := -1.262e-2 in
  let a02 := 7.164e-5 in
  let a03 := 2.006e-6 in
  let a04 := -3.21e-8 in
  let a10 := 9.4742e-5 in
  let a11 := -1.2580e-5 in
  let a12 := -6.4885e-8 in
  let a13 := 1.0507e-8 in
  let a14 := -2.0122e-10 in
  let a20 := -3.9064e-7 in
  let a21 := 9.1041e-9 in
  let a22 := -1.6002e-10 in
  let a23 := 7.988e-12 in
  let a30 := 1.100e-10 in
  let a31 := 6.649e-12 in
  let a32 := -3.389e-13 in
  let A := a00 + a01*T + a02*T*T + a03*T*T*T + a04*T*T*T*T +
           (a10+a11*T+a12*T*T+a13*T*T*T+a14*T*T*T*T)*
             P + (a20+a21*T+a22*T*T+a23*T*T*T)*P*
             P + (a30+a31*T+a32*T*T)*P*P*P in
  (* eqn 36 p.47 *)
  let b00 := -1.922e-2 in
  let b01 := -4.42e-5 in
  let b10 := 7.3637e-5 in
  let b11 := 1.7945e-7 in
  let B := b00 + b01*T + (b10+b11*T)*P in
  (* eqn 37 p.47 *)
  let d00 := 1.727e-3 in
  let d10 := -7.9836e-6 in
  let D := d00 + d10*P in
  (* eqn 33 p.46 *)
  let svel := Cw + A*S + B*S*sqrt S + D*S*S in
  svel.

(** [sw_adtg]: adiabatic temperature gradient. *)
Definition sw_adtg (S T P : float) : float :=
  let a0 := 3.5803E-5 in
  let a1 := 8.5258E-6 in
  let a2 := -6.836E-8 in
  let a3 := 6.6228E-10 in
  let b0 := 1.8932E-6 in
  let b1 := -4.2393E-8 in
  let c0 := 1.8741E-8 in
  let c1 := -6.7795E-10 in
  let c2 := 8.733E-12 in
  let c3 := -5.4481E-14 in
  let d0 := -1.1351E-10 in
  let d1 := 2.7759E-12 in
  let e0 := -4.6206E-13 in
  let e1 := 1.8676E-14 in
  let e2 := -2.1687E-16 in
  let ADTG := a0 + (a1+(a2+a3*T)*T)*T + (b0+b1*T)*(S-35) +
              ((c0+(c1+(c2+c3*T)*T)*T)+(d0+d1*T)*
                 (S-35))*P + (e0+(e1+e2*T)*T)*P*P in
  ADTG.

(** [sw_ptmp]: potential temperature at reference pressure [PR]. *)
Definition sw_ptmp (S T P PR : float) : float :=
  (* theta1 *)
  let del_P := PR - P in
  let del_th := del_P * sw_adtg S T P in
  let th := T + 0.5*del_th in
  let q := del_th in
  (* theta2 *)
  let del_th := del_P * sw_adtg S th (P+0.5*del_P) in
  let th := th + (1-1/sqrt 2)*(del_th-q) in
  let q := (2-sqrt 2)*del_th + (-2+3/sqrt 2)*q in
  (* theta3 *)
  let del_th := del_P * sw_adtg S th (P+0.5*del_P) in
  let th := th + (1+1/sqrt 2)*(del_th-q) in
  let q := (2+sqrt 2)*del_th + (-2-3/sqrt 2)*q in
  (* theta4 *)
  let del_th := del_P * sw_adtg S th (P+del_P) in
  let PT := th + (del_th-2*q)/6 in
  PT.

(** [sw_dens]: in-situ density. *)
Definition sw_dens (S T P : float) : float :=
  let densP0 := sw_dens0 S T in
  let K := sw_seck S T P in
  let P := P / 10.0 in
  let dens := densP0 / (1 - P/K) in
  dens.

(** [sw_sigmat]; the parameter [P] is not read. *)
Definition sw_sigmat (S T P : float) : float :=
  let dens := sw_dens S T 0 in
  dens - 1000.0.

(** [sw_sigmateta]. *)
Definition sw_sigmateta (S T P : float) : float :=
  let dens := sw_dens S (sw_ptmp S T P 0) 0 in
  dens - 1000.0.

(** [sw_svan]: specific volume anomaly. *)
Definition sw_svan (S T P : float) : float :=
  let svan := (1 / sw_dens S T P) - (1 / sw_dens 35 0 P) in
  svan.

Section Libm.

(** [math.Sin] and [math.Pow] of the Go runtime. *)
Variable math_Sin : float -> float.
Variable math_Pow : float -> float -> float.

(** [math.Pi / 180] is a constant expression: Go evaluates it exactly and
    rounds once, to 0x1.1df46a2529d39p-6. *)
Definition DEG2RAD : float := 0x1.1df46a2529d39p-6.

(** [sw_dpth]: depth from pressure and latitude. *)
Definition sw_dpth (P LAT : float) : float :=
  let c1 := 9.72659 in
  let c2 := -2.2512E-5 in
  let c3 := 2.279E-10 in
  let c4 := -1.82E-15 in
  let gam_dash := 2.184e-6 in
  let LAT := abs LAT in
  let X := math_Sin (LAT * DEG2RAD) in
  let X := X * X in
  let bot_line := 9.780318*(1.0+(5.2788E-3+2.36E-5*X)*X) + gam_dash*0.5*P in
  let top_line := (((c4*P+c3)*P+c2)*P + c1) * P in
  let DEPTHM := top_line / bot_line in
  DEPTHM.

(** The two coefficient arrays of [sw_sal]. *)
Definition sal_a : list float := [0.0080; -0.1692; 25.3851; 14.0941; -7.0261; 2.7081].
Definition sal_b : list float := [0.0005; -0.0056; -0.0066; -0.0375; 0.0636; -0.0144].

(** One turn of [for i, v := range a]: the state is [(sum1, sum2)]. *)
Definition sal_step (r : float) (acc : float * float) (iv : nat * float)
  : float * float :=
  let '(sum1, sum2) := acc in
  let '(i, v) := iv in
  let t := math_Pow r (F64.of_int (Z.of_nat i) / 2.0) in
  (sum1 + v * t, sum2 + nth i sal_b 0 * t).

(** [sw_sal]: salinity from conductivity. *)
Definition sw_sal (C T P : float) : float :=
  let A1 := 2.070E-5 in
  let A2 := -6.370E-10 in
  let A3 := 3.989E-15 in
  let B1 := 3.426E-2 in
  let B2 := 4.464E-4 in
  let B3 := 4.215E-1 in
  let B4 := -3.107E-3 in
  let C0 := 6.766097E-1 in
  let C1 := 2.00564E-2 in
  let C2 := 1.104259E-4 in
  let C3 := -6.9698E-7 in
  let C4 := 1.0031E-9 in
  if F64.go_le C 0 then 0
  else
    let C := (C * 10) / 42.914 in
    let r := 1 + (P*(A1+P*(A2+P*A3)))/(1+B1*T+B2*T*T+B3*C+B4*C*T) in
    let r := C / (r * (C0 + T*(C1+T*(C2+T*(C3+T*C4))))) in
    let '(sum1, sum2) :=
      fold_left (sal_step r) (combine (seq 0 (List.length sal_a)) sal_a) (0, 0) in
    let T := T - 15 in
    sum1 + sum2*T/(1+0.0162*T).

(** seawater_test.go: [round] and [toFixed]. *)
Definition round (num : float) : Z :=
  F64.to_int (num + F64.copysign 0.5 num).

Definition toFixed (num : float) (precision : Z) : float :=
  let output := math_Pow 10 (F64.of_int precision) in
  F64.of_int (round (num * output)) / output.

End Libm.

(** ** Stand-in for [math.Pow] at whole exponents

    [10^n] is a float64 for [n <= 22], and the products leading to it are
    exact, so repeated multiplication returns what [math.Pow(10, n)]
    returns.  It instantiates [math_Pow] where a closed evaluation is
    wanted. *)
Fixpoint pow_nat (x : float) (n : nat) : float :=
  match n with
  | O => 1
  | Datatypes.S k => x * pow_nat x k
  end.

Definition pow_by_mul (x y : float) : float :=
  pow_nat x (Z.to_nat (F64.to_int y)).

(** ** The integration scheme of [sw_ptmp] as the specification words it

    One step of the Runge-Kutta-Gill scheme for d(theta)/dP = G over the
    fixed interval [dP = PR - P].  Each stage has an increment
    [dth = dP * G(...)]; stages 2 and 3 update [theta] and the accumulator
    [q] with three coefficients. *)
Definition rk_stage (k1 k2 k3 : float) (th q dth : float) : float * float :=
  (th + k1 * (dth - q), k2 * dth + k3 * q).

Definition ptmp_rk4 (G : float -> float -> float -> float)
    (S T P PR : float) : float :=
  let dP := PR - P in
  (* stage 1 *)
  let dth1 := dP * G S T P in
  let th1 := T + 0.5 * dth1 in
  let q1 := dth1 in
  (* stage 2 *)
  let dth2 := dP * G S th1 (P + 0.5 * dP) in
  let '(th2, q2) :=
    rk_stage (1 - 1 / sqrt 2) (2 - sqrt 2) (-2 + 3 / sqrt 2) th1 q1 dth2 in
  (* stage 3 *)
  let dth3 := dP * G S th2 (P + 0.5 * dP) in
  let '(th3, q3) :=
    rk_stage (1 + 1 / sqrt 2) (2 + sqrt 2) (-2 - 3 / sqrt 2) th2 q2 dth3 in
  (* stage 4 *)
  let dth4 := dP * G S th3 (P + dP) in
  th3 + (dth4 - 2 * q3) / 6.

(** ** IEEE facts used below (from the specification of binary64) *)

Module F64Facts.
Import F64.

Lemma is_zero_spec (x : float) :
  is_zero x = match Prim2SF x with S754_zero _ => true | _ => false end.
Proof.
  unfold is_zero. rewrite eqb_spec.
  change (Prim2SF zero) with (S754_zero false).
  destruct (Prim2SF x) as [s|s| |s m e]; try destruct s; reflexivity.
Qed.

Lemma is_nan_spec (x : float) :
  is_nan x = match Prim2SF x with S754_nan => true | _ => false end.
Proof.
  unfold is_nan. rewrite eqb_spec.
  destruct (Prim2SF x) as [s|s| |s m e]; try destruct s; try reflexivity;
    unfold SFeqb, SFcompare;
    rewrite Z.compare_refl, Pos.compare_cont_refl; reflexivity.
Qed.

Lemma is_infinity_spec (x : float) :
  is_infinity x = match Prim2SF x with S754_infinity _ => true | _ => false end.
Proof.
  unfold is_infinity. rewrite eqb_spec, abs_spec.
  change (Prim2SF infinity) with (S754_infinity false).
  destruct (Prim2SF x) as [s|s| |s m e]; try destruct s; reflexivity.
Qed.

Lemma is_finite_spec (x : float) :
  is_finite x = match Prim2SF x with
                | S754_nan | S754_infinity _ => false
                | _ => true
                end.
Proof.
  unfold is_finite. rewrite is_nan_spec, is_infinity_spec.
  destruct (Prim2SF x); reflexivity.
Qed.

(** [math.Abs] forgets the sign. *)
Lemma abs_opp (x : float) : abs (- x) = abs x.
Proof.
  apply Prim2SF_inj. rewrite !abs_spec, opp_spec.
  destruct (Prim2SF x); reflexivity.
Qed.


Lemma same_number_spec (x y : float) :
  same_number x y <-> sf_same (Prim2SF x) (Prim2SF y).
Proof.
  unfold same_number, sf_same. rewrite !is_zero_spec. split.
  - intros [->|[Hx Hy]]; [now left|right].
    destruct (Prim2SF x), (Prim2SF y); try discriminate; exact I.
  - intros [H|H]; [left; now apply Prim2SF_inj|right].
    destruct (Prim2SF x), (Prim2SF y); try contradiction; split; reflexivity.
Qed.

Ltac sf_cases :=
  repeat match goal with s : bool |- _ => destruct s end;
  first [ contradiction | discriminate | left; reflexivity | right; exact I ].

Ltac sf_congruence a a' b b' :=
  intros [->|Ha] [->|Hb]; [now left| | |];
  destruct a', b'; try destruct a; try destruct b; try contradiction;
  cbn; sf_cases.

Lemma sf_same_add a a' b b' :
  sf_same a a' -> sf_same b b' -> sf_same (SF64add a b) (SF64add a' b').
Proof. sf_congruence a a' b b'. Qed.

Lemma sf_same_sub a a' b b' :
  sf_same a a' -> sf_same b b' -> sf_same (SF64sub a b) (SF64sub a' b').
Proof. sf_congruence a a' b b'. Qed.

Lemma sf_same_mul a a' b b' :
  sf_same a a' -> sf_same b b' -> sf_same (SF64mul a b) (SF64mul a' b').
Proof. sf_congruence a a' b b'. Qed.

Lemma sf_same_div_l a a' b :
  sf_same a a' -> sf_same (SF64div a b) (SF64div a' b).
Proof.
  intros [->|Ha]; [now left|].
  destruct a, a', b; try contradiction; cbn; sf_cases.
Qed.

Lemma sn_refl x : same_number x x.
Proof. now left. Qed.

Lemma sn_sym x y : same_number x y -> same_number y x.
Proof. intros [->|[? ?]]; [now left|now right]. Qed.

Lemma sn_trans x y z : same_number x y -> same_number y z -> same_number x z.
Proof.
  intros [->|[Hx Hy]] [->|[Hy' Hz]]; try (now left); now right.
Qed.

Lemma sn_add x x' y y' :
  same_number x x' -> same_number y y' -> same_number (x + y) (x' + y').
Proof.
  rewrite !same_number_spec, !add_spec. apply sf_same_add.
Qed.

Lemma sn_sub x x' y y' :
  same_number x x' -> same_number y y' -> same_number (x - y) (x' - y').
Proof.
  rewrite !same_number_spec, !sub_spec. apply sf_same_sub.
Qed.

Lemma sn_mul x x' y y' :
  same_number x x' -> same_number y y' -> same_number (x * y) (x' * y').
Proof.
  rewrite !same_number_spec, !mul_spec. apply sf_same_mul.
Qed.

Lemma sn_div_l x x' y :
  same_number x x' -> same_number (x / y) (x' / y).
Proof.
  rewrite !same_number_spec, !div_spec. apply sf_same_div_l.
Qed.

(** [0 * y] is a zero when [y] is finite. *)
Lemma mul_zero_finite y : is_finite y = true -> same_number (0 * y) 0.
Proof.
  rewrite is_finite_spec, same_number_spec, mul_spec.
  change (Prim2SF 0) with (S754_zero false).
  destruct (Prim2SF y) as [s|s| |s m e]; try discriminate; intros _; cbn; sf_cases.
Qed.

(** [x - x] is [+0] when [x] is finite. *)
Lemma sub_self x : is_finite x = true -> x - x = 0.
Proof.
  rewrite is_finite_spec. intros H. apply Prim2SF_inj. rewrite sub_spec.
  change (Prim2SF 0) with (S754_zero false).
  destruct (Prim2SF x) as [s|s| |s m e]; try discriminate.
  - destruct s; reflexivity.
  - unfold SF64sub, SFsub. rewrite Z.sub_diag. reflexivity.
Qed.

(** Adding [+0] does not change the number. *)
Lemma add_zero_r x : same_number (x + 0) x.
Proof.
  rewrite same_number_spec, add_spec.
  change (Prim2SF 0) with (S754_zero false).
  destruct (Prim2SF x) as [s|s| |s m e]; cbn; sf_cases.
Qed.

(** Go's [==] holds between two floats that are the same number. *)
Lemma sn_go_eq x y : same_number x y -> is_nan y = false -> go_eq x y = true.
Proof.
  unfold go_eq. rewrite same_number_spec, is_nan_spec, eqb_spec.
  intros [->|H] Hy.
  - destruct (Prim2SF y) as [s|s| |s m e]; try discriminate;
      try (destruct s; reflexivity).
    unfold SFeqb, SFcompare.
    rewrite Z.compare_refl, Pos.compare_cont_refl. destruct s; reflexivity.
  - destruct (Prim2SF x), (Prim2SF y); try contradiction; reflexivity.
Qed.

(** Go's [==] between two floats: they are the same number, and not NaN. *)
Lemma go_eq_same x y : go_eq x y = true -> same_number x y /\ is_nan x = false.
Proof.
  unfold go_eq. rewrite same_number_spec, is_nan_spec, eqb_spec.
  unfold SFeqb.
  destruct (Prim2SF x) as [s|s| |s m e], (Prim2SF y) as [s'|s'| |s' m' e'];
    cbn; try discriminate;
    try (destruct s; discriminate); try (destruct s'; discriminate);
    try (intros _; split; [right; exact I|reflexivity]).
  - destruct s, s'; try discriminate; intros _; split; try reflexivity; now left.
  - destruct s, s'; try discriminate;
      (destruct (Z.compare_spec e e') as [->| |]; try discriminate);
      change (PosDef.Pos.compare_cont Eq m m') with (Pos.compare m m');
      (destruct (Pos.compare_spec m m') as [->| |]; try discriminate);
      intros _; split; try reflexivity; now left.
Qed.

(** Division by a zero never gives a finite result. *)
Lemma div_zero_not_finite x z : is_zero z = true -> is_finite (x / z) = false.
Proof.
  rewrite is_zero_spec, is_finite_spec, div_spec.
  destruct (Prim2SF z); try discriminate. intros _.
  destruct (Prim2SF x); reflexivity.
Qed.

(** A zero divided by a non-zero number is a zero. *)
Lemma zero_div k : is_nan k = false -> is_zero k = false -> is_zero (0 / k) = true.
Proof.
  rewrite is_nan_spec, !is_zero_spec, div_spec.
  change (Prim2SF 0) with (S754_zero false).
  destruct (Prim2SF k); try discriminate; reflexivity.
Qed.

(** Subtracting a zero from 1 leaves 1. *)
Lemma one_sub_zero z : is_zero z = true -> 1 - z = 1.
Proof.
  rewrite is_zero_spec. intros H. apply Prim2SF_inj. rewrite sub_spec.
  destruct (Prim2SF z); try discriminate. reflexivity.
Qed.

Lemma div_eucl_exact (a b : Z) : (0 < b)%Z -> Z.div_eucl (a * b) b = (a, 0%Z).
Proof.
  intros Hb.
  pose proof (Z.div_mul a b ltac:(lia)) as Hq.
  pose proof (Z.mod_mul a b ltac:(lia)) as Hr.
  unfold Z.div, Z.modulo in Hq, Hr.
  destruct (Z.div_eucl (a * b) b) as [q r]. cbn in Hq, Hr. now subst.
Qed.

Ltac shr_step :=
  cbn [shr shr_1 iter_pos shr_record_of_loc shr_m shr_r shr_s loc_of_shr_record
       round_nearest_even Zdigits2 orb].

Lemma fexp_eq (x : Z) : fexp prec emax x = Z.max (x - 53) (-1074).
Proof. reflexivity. Qed.

Lemma bounded_spec (m : positive) (e : Z) :
  bounded prec emax m e = true ->
  fexp prec emax (Zpos (digits2_pos m) + e) = e /\ (e <= 971)%Z.
Proof.
  unfold bounded, canonical_mantissa. rewrite andb_true_iff, Z.eqb_eq, Z.leb_le.
  intros [H1 H2]. split; [exact H1|exact H2].
Qed.

(** Rounding a mantissa that is already canonical changes nothing. *)
Lemma binary_round_aux_exact (s : bool) (m : positive) (e : Z) :
  bounded prec emax m e = true ->
  binary_round_aux prec emax s (Zpos m) e loc_Exact = S754_finite s m e.
Proof.
  intros Hb. destruct (bounded_spec m e Hb) as [Hc He].
  unfold binary_round_aux, shr_fexp.
  change (Zdigits2 (Zpos m)) with (Zpos (digits2_pos m)).
  rewrite Hc, Z.sub_diag. shr_step.
  rewrite Hc, Z.sub_diag. shr_step.
  apply Z.leb_le in He. change (emax - prec)%Z with 971%Z. now rewrite He.
Qed.

(** The same with one spare low bit, which the rounding shifts out. *)
Lemma binary_round_aux_twice (s : bool) (m : positive) (e : Z) :
  bounded prec emax m e = true ->
  binary_round_aux prec emax s (Zpos m~0) (e - 1) loc_Exact = S754_finite s m e.
Proof.
  intros Hb. destruct (bounded_spec m e Hb) as [Hc He].
  unfold binary_round_aux, shr_fexp.
  change (Zdigits2 (Zpos m~0)) with (Zpos (Pos.succ (digits2_pos m))).
  rewrite Pos2Z.inj_succ.
  replace (Z.succ (Zpos (digits2_pos m)) + (e - 1))%Z
    with (Zpos (digits2_pos m) + e)%Z by lia.
  rewrite Hc. replace (e - (e - 1))%Z with 1%Z by lia. shr_step.
  replace (e - 1 + 1)%Z with e by lia.
  rewrite Hc, Z.sub_diag. shr_step.
  apply Z.leb_le in He. change (emax - prec)%Z with 971%Z. now rewrite He.
Qed.

Lemma Prim2SF_one : Prim2SF 1 = S754_finite false 4503599627370496 (-52).
Proof. reflexivity. Qed.

Lemma new_location_zero (n : Z) : new_location n 0 = loc_Exact.
Proof. unfold new_location. destruct (Z.even n); reflexivity. Qed.

(** The exact quotient of a canonical mantissa by 1. *)
Lemma div_core_one (m : positive) (e : Z) :
  bounded prec emax m e = true ->
  SFdiv_core_binary prec emax (Zpos m) e 4503599627370496 (-52)
    = (Zpos m, e, loc_Exact) \/
  SFdiv_core_binary prec emax (Zpos m) e 4503599627370496 (-52)
    = (Zpos m~0, (e - 1)%Z, loc_Exact).
Proof.
  intros Hb. destruct (bounded_spec m e Hb) as [Hc He].
  unfold SFdiv_core_binary.
  change (Zdigits2 4503599627370496) with 53%Z.
  change (Zdigits2 (Zpos m)) with (Zpos (digits2_pos m)).
  rewrite fexp_eq in *.
  set (d := Zpos (digits2_pos m)) in *.
  assert (Hd : (0 < d)%Z) by (unfold d; lia).
  destruct (Z.eq_dec e (-1074)) as [E|E].
  - left.
    replace (Z.min (Z.max (d + e - (53 + -52) - 53) (-1074)) (e - -52)) with e by lia.
    replace (e - -52 - e)%Z with 52%Z by lia.
    cbv zeta. rewrite Z.shiftl_mul_pow2 by lia.
    change (2 ^ 52)%Z with 4503599627370496%Z.
    rewrite div_eucl_exact by lia. now rewrite new_location_zero.
  - right.
    replace (Z.min (Z.max (d + e - (53 + -52) - 53) (-1074)) (e - -52))
      with (e - 1)%Z by lia.
    replace (e - -52 - (e - 1))%Z with 53%Z by lia.
    cbv zeta. rewrite Z.shiftl_mul_pow2 by lia.
    change (2 ^ 53)%Z with (2 * 4503599627370496)%Z.
    rewrite Z.mul_assoc, div_eucl_exact by lia.
    rewrite new_location_zero.
    replace (Zpos m * 2)%Z with (Zpos m~0) by lia. reflexivity.
Qed.

(** [x / 1] is [x], for every float. *)
Lemma div_one (x : float) : x / 1 = x.
Proof.
  apply Prim2SF_inj. rewrite div_spec, Prim2SF_one.
  pose proof (Prim2SF_valid x) as Hv.
  destruct (Prim2SF x) as [s|s| |s m e]; try (destruct s; reflexivity); try reflexivity.
  cbn [valid_binary] in Hv.
  unfold SF64div, SFdiv.
  destruct (div_core_one m e Hv) as [-> | ->]; rewrite xorb_false_r.
  - now apply binary_round_aux_exact.
  - now apply binary_round_aux_twice.
Qed.

(** The exact quotient of a mantissa by itself. *)
Lemma div_core_self (m : positive) (e : Z) :
  SFdiv_core_binary prec emax (Zpos m) e (Zpos m) e
    = (9007199254740992%Z, (-53)%Z, loc_Exact).
Proof.
  unfold SFdiv_core_binary. rewrite !Z.sub_diag.
  change (Z.min (fexp prec emax 0) 0) with (-53)%Z.
  change (0 - -53)%Z with 53%Z. cbv zeta.
  rewrite Z.shiftl_mul_pow2 by lia.
  change (2 ^ 53)%Z with 9007199254740992%Z.
  rewrite Z.mul_comm, div_eucl_exact by lia. now rewrite new_location_zero.
Qed.

(** [x / x] is 1 for a finite non-zero [x]. *)
Lemma div_self (x : float) :
  is_finite x = true -> is_zero x = false -> x / x = 1.
Proof.
  rewrite is_finite_spec, is_zero_spec. intros Hf Hz.
  apply Prim2SF_inj. rewrite div_spec, Prim2SF_one.
  destruct (Prim2SF x) as [s|s| |s m e]; try discriminate.
  unfold SF64div, SFdiv. rewrite div_core_self, xorb_nilpotent. reflexivity.
Qed.

Ltac sn_step :=
  first [ assumption | apply sn_refl | apply sn_add | apply sn_sub
        | apply sn_mul | apply sn_div_l ].

Lemma is_finite_not_nan x : is_finite x = true -> is_nan x = false.
Proof.
  rewrite is_finite_spec, is_nan_spec. destruct (Prim2SF x); congruence.
Qed.

(** NaN and infinities are not finite; NaN goes through [-] and [/]. *)
Lemma nan_not_finite x : is_nan x = true -> is_finite x = false.
Proof.
  rewrite is_finite_spec, is_nan_spec. destruct (Prim2SF x); congruence.
Qed.

Lemma sub_nan_r x y : is_nan y = true -> is_nan (x - y) = true.
Proof.
  rewrite !is_nan_spec, sub_spec.
  destruct (Prim2SF y); try discriminate. destruct (Prim2SF x); reflexivity.
Qed.

Lemma div_nan_r x y : is_nan y = true -> is_nan (x / y) = true.
Proof.
  rewrite !is_nan_spec, div_spec.
  destruct (Prim2SF y); try discriminate. destruct (Prim2SF x); reflexivity.
Qed.

(** The quotient of two floats that Go's [==] equates: 1, or NaN for
    [0/0] and [inf/inf]. *)
Lemma div_go_eq (p k : float) :
  go_eq k p = true -> p / k = 1 \/ is_nan (p / k) = true.
Proof.
  intros H. destruct (go_eq_same k p H) as [[->|[Hk Hp]] Hn].
  - destruct (is_finite p) eqn:Hf; [destruct (is_zero p) eqn:Hz|].
    + right. revert Hz. rewrite is_zero_spec, is_nan_spec, div_spec.
      destruct (Prim2SF p); try discriminate. reflexivity.
    + left. now apply div_self.
    + right. revert Hf Hn. rewrite is_finite_spec, !is_nan_spec, div_spec.
      destruct (Prim2SF p); try discriminate; reflexivity.
  - right. revert Hk Hp. rewrite !is_zero_spec, is_nan_spec, div_spec.
    destruct (Prim2SF p), (Prim2SF k); try discriminate; reflexivity.
Qed.

End F64Facts.

(** ** Lemmas on the functions of the package *)

(** The gradient polynomial has no division: it maps equal numbers to equal
    numbers, whatever the sign of a zero argument. *)
Lemma sw_adtg_same_number S T T' P P' :
  F64.same_number T T' -> F64.same_number P P' ->
  F64.same_number (sw_adtg S T P) (sw_adtg S T' P').
Proof.
  intros HT HP. unfold sw_adtg. cbv zeta. repeat F64Facts.sn_step.
Qed.

(** * Properties *)

(** ** The fixtures of seawater_test.go, run on the embedding *)

Example TestSw_T90conv_T68 :
  map (fun v => toFixed pow_by_mul (sw_T90conv v "T68") 6) [10.0; 15.0; 20.0; 30.0]
  = [9.997601; 14.996401; 19.995201; 29.992802].
Proof. vm_compute. reflexivity. Qed.

Example TestSw_T90conv_T48 :
  toFixed pow_by_mul (sw_T90conv 20.0 "T48") 14 = 19.988162840918179.
Proof. vm_compute. reflexivity. Qed.

Example TestSw_T68conv :
  map (fun v => toFixed pow_by_mul (sw_T68conv v) 0)
      [9.997601; 14.996401; 19.995201; 29.992802]
  = [10.0; 15.0; 20.0; 30.0].
Proof. vm_compute. reflexivity. Qed.

Example TestSw_dens_surface :
  toFixed pow_by_mul (sw_dens 35.0 30.0 0.0) 3 = 1021.729.
Proof. vm_compute. reflexivity. Qed.

Example TestSw_sigmat :
  toFixed pow_by_mul (sw_sigmat 35.0 30.0 0.0) 3 = 21.729 /\
  toFixed pow_by_mul (sw_sigmat 34.67 2.48 10035.0) 3 = 27.668.
Proof. vm_compute. split; reflexivity. Qed.

Example TestSw_sigmateta :
  toFixed pow_by_mul (sw_sigmateta 35.0 30.0 0.0) 3 = 21.729 /\
  toFixed pow_by_mul (sw_sigmateta 34.67 2.48 10035.0) 3 = 27.764.
Proof. vm_compute. split; reflexivity. Qed.

Example TestSw_svel :
  toFixed pow_by_mul (sw_svel 35.0 30.0 0.0) 3 = 1545.595 /\
  toFixed pow_by_mul (sw_svel 34.67 2.48 10035.0) 3 = 1633.179.
Proof. vm_compute. split; reflexivity. Qed.

Example TestSw_ptmp :
  toFixed pow_by_mul (sw_ptmp 35.0 30.0 0.0 0) 3 = 30.000 /\
  toFixed pow_by_mul (sw_ptmp 34.67 2.48 10035.0 0) 3 = 1.242.
Proof. vm_compute. split; reflexivity. Qed.

Example TestSw_svan :
  toFixed pow_by_mul (sw_svan 35.0 30.0 0.0) 9 = 6.071e-06 /\
  toFixed pow_by_mul (sw_svan 34.67 2.48 10035.0) 10 = 8.352e-07.
Proof. vm_compute. split; reflexivity. Qed.

(** ** Temperature scales *)

(** C1. The claim: for a scale identifier other than "T68" and "T48",
    [sw_T90conv] reports an invalid-argument error to its caller instead of
    silently returning a value.  The code builds the error and drops it: at
    [t = 20], [t_type = "T90"] the call returns the plain number 0, the very
    value that the valid call [sw_T90conv 0 "T68"] returns, so the caller
    cannot see that the scale was rejected. *)
Theorem sw_T90conv_unrecognized_scale_is_silent :
  sw_T90conv 20 "T90" = 0 /\
  is_nan (sw_T90conv 20 "T90") = false /\
  sw_T90conv 20 "T90" = sw_T90conv 0 "T68".
Proof.
  repeat split; vm_compute; reflexivity.
Qed.

(** C10. For every temperature [t] and every scale identifier other than
    "T68" and "T48", [sw_T90conv] returns exactly 0.0: the result variable
    keeps its zero value, whatever [t] is. *)
Theorem sw_T90conv_unrecognized_scale_returns_zero (t : float) (t_type : string) :
  t_type <> "T68"%string ->
  t_type <> "T48"%string ->
  sw_T90conv t t_type = 0.
Proof.
  intros H68 H48. unfold sw_T90conv.
  destruct (String.eqb_spec t_type "T68") as [E|_]; [contradiction|].
  destruct (String.eqb_spec t_type "T48") as [E|_]; [contradiction|].
  reflexivity.
Qed.

Lemma sw_T90conv_unrecognized_scale_returns_zero_witness :
  "K"%string <> "T68"%string /\ "K"%string <> "T48"%string /\
  sw_T90conv 37.5 "K" = 0.
Proof.
  split; [discriminate|split; [discriminate|]].
  apply (sw_T90conv_unrecognized_scale_returns_zero 37.5 "K"); discriminate.
Defined.

(** ** Density *)

(** C3, as the claim states it, fails where the secant bulk modulus at zero
    pressure is zero or NaN.  At S = 0 and T = -57.96236609586023
    (-0x1.cfb2ecfee3fdcp+5) it rounds to exactly 0, so [P/K] is 0/0:
    [sw_dens] returns NaN while [sw_dens0] returns 928.92292539733739.  At
    S = 1 and T = 1e105 the cubic [AW] overflows, [(A+B*P)*P] is
    [infinity * 0], and [sw_dens] returns NaN while [sw_dens0] returns
    +infinity. *)
Lemma sw_dens_at_zero_pressure_counterexample :
  (sw_seck 0 (-0x1.cfb2ecfee3fdcp+5) 0 = 0 /\
   sw_dens0 0 (-0x1.cfb2ecfee3fdcp+5) = 928.92292539733739 /\
   is_nan (sw_dens 0 (-0x1.cfb2ecfee3fdcp+5) 0) = true /\
   F64.go_eq (sw_dens 0 (-0x1.cfb2ecfee3fdcp+5) 0)
             (sw_dens0 0 (-0x1.cfb2ecfee3fdcp+5)) = false) /\
  (is_nan (sw_seck 1 1e105 0) = true /\
   sw_dens0 1 1e105 = infinity /\
   is_nan (sw_dens 1 1e105 0) = true /\
   F64.go_eq (sw_dens 1 1e105 0) (sw_dens0 1 1e105) = false).
Proof.
  repeat split; vm_compute; reflexivity.
Qed.

(** C3 (amended). For every salinity and temperature at which the secant
    bulk modulus at zero pressure is a number other than zero, in-situ
    density at zero pressure is the atmospheric density, bit for bit:
    [P/K] is then a zero, the denominator is exactly 1, and division by 1
    is exact. *)
Theorem sw_dens_at_zero_pressure (S T : float) :
  is_nan (sw_seck S T 0) = false ->
  is_zero (sw_seck S T 0) = false ->
  sw_dens S T 0 = sw_dens0 S T.
Proof.
  intros Hnan Hzero. unfold sw_dens. cbv zeta.
  change (0 / 10.0) with 0.
  rewrite F64Facts.one_sub_zero by now apply F64Facts.zero_div.
  apply F64Facts.div_one.
Qed.

Lemma sw_dens_at_zero_pressure_witness :
  is_nan (sw_seck 35 10 0) = false /\
  is_zero (sw_seck 35 10 0) = false /\
  sw_dens 35 10 0 = sw_dens0 35 10.
Proof.
  split; [vm_compute; reflexivity|split; [vm_compute; reflexivity|]].
  apply (sw_dens_at_zero_pressure 35 10); vm_compute; reflexivity.
Defined.

(** C6. For every S, T and P, [sw_sigmat S T P] is the float64 value
    [sw_dens S T 0 - 1000], and it is the same for every pressure
    argument. *)
Theorem sw_sigmat_definition (S T P : float) :
  sw_sigmat S T P = sw_dens S T 0 - 1000 /\
  forall P' : float, sw_sigmat S T P' = sw_sigmat S T P.
Proof.
  split; [|intros P']; unfold sw_sigmat; reflexivity.
Qed.

(** C8. [sw_dens] is a total function of three floats; no input makes it
    fail.  Where the secant bulk modulus equals the scaled pressure
    ([K == P/10] in Go) the quotient [P/K] is 1, or NaN for 0/0 and
    inf/inf, so the denominator [1 - P/K] is a zero or NaN, and the IEEE
    division answers with an infinity or NaN. *)
Theorem sw_dens_degenerate_denominator (S T P : float) :
  F64.go_eq (sw_seck S T P) (P / 10.0) = true ->
  let denominator := 1 - (P / 10.0) / sw_seck S T P in
  (is_zero denominator = true \/ is_nan denominator = true) /\
  (is_infinity (sw_dens S T P) = true \/ is_nan (sw_dens S T P) = true).
Proof.
  intros H denominator.
  assert (Hden : is_zero denominator = true \/ is_nan denominator = true).
  { unfold denominator.
    destruct (F64Facts.div_go_eq _ _ H) as [-> | Hn].
    - left. reflexivity.
    - right. now apply F64Facts.sub_nan_r. }
  split; [exact Hden|].
  assert (Hfin : is_finite (sw_dens S T P) = false).
  { unfold sw_dens. cbv zeta. fold denominator.
    destruct Hden as [Hz | Hn].
    - now apply F64Facts.div_zero_not_finite.
    - now apply F64Facts.nan_not_finite, F64Facts.div_nan_r. }
  unfold is_finite in Hfin.
  destruct (is_nan (sw_dens S T P)), (is_infinity (sw_dens S T P));
    try discriminate; auto.
Qed.

Lemma sw_dens_degenerate_denominator_witness :
  F64.go_eq (sw_seck 35 0 (-0x1.e69942dd1dbd1p+16))
            (-0x1.e69942dd1dbd1p+16 / 10.0) = true /\
  is_infinity (sw_dens 35 0 (-0x1.e69942dd1dbd1p+16)) = true.
Proof.
  split; [vm_compute; reflexivity|].
  destruct (sw_dens_degenerate_denominator 35 0 (-0x1.e69942dd1dbd1p+16))
    as [_ [Hinf | Hnan]].
  - vm_compute; reflexivity.
  - exact Hinf.
  - vm_compute in Hnan. discriminate.
Defined.

(** C9. The deep-water fixture of the UNESCO tables:
    [sw_dens(34.67, 2.48, 10035.0)] rounded to 3 decimals by the test file's
    [toFixed] equals 1070.136, given that [math.Pow(10, 3)] is 1000. *)
Theorem sw_dens_deep_water_fixture (math_Pow : float -> float -> float) :
  math_Pow 10 3 = 1000 ->
  F64.go_eq (toFixed math_Pow (sw_dens 34.67 2.48 10035.0) 3) 1070.136 = true.
Proof.
  intros Hpow. unfold toFixed.
  change (F64.of_int 3) with 3. rewrite Hpow.
  vm_compute. reflexivity.
Qed.

Lemma sw_dens_deep_water_fixture_witness :
  pow_by_mul 10 3 = 1000 /\
  F64.go_eq (toFixed pow_by_mul (sw_dens 34.67 2.48 10035.0) 3) 1070.136 = true.
Proof.
  split; [vm_compute; reflexivity|].
  apply (sw_dens_deep_water_fixture pow_by_mul). vm_compute; reflexivity.
Defined.

(** ** Potential temperature *)

(** C5. For every S, T, P and PR, [sw_ptmp] is the four-stage single step
    [ptmp_rk4] over the fixed interval [PR - P], with the adiabatic
    gradient [sw_adtg] for G: same stages, same evaluation points, same
    coefficients, same float64 result. *)
Theorem sw_ptmp_is_rk4 (S T P PR : float) :
  sw_ptmp S T P PR = ptmp_rk4 sw_adtg S T P PR.
Proof.
  unfold sw_ptmp, ptmp_rk4, rk_stage. reflexivity.
Qed.

(** C2, as the claim states it, fails when the gradient is not finite.  With
    P = PR = 1e200 the term in [P*P] of [sw_adtg] overflows, and
    [0 * infinity] is NaN; with P = PR = +infinity, [PR - P] itself is NaN.
    In both cases the result is NaN, not T = 10. *)
Lemma sw_ptmp_same_pressure_counterexample :
  (is_infinity (sw_adtg 35 10 1e200) = true /\
   is_nan (sw_ptmp 35 10 1e200 1e200) = true /\
   F64.go_eq (sw_ptmp 35 10 1e200 1e200) 10 = false) /\
  (is_nan (sw_ptmp 35 10 infinity infinity) = true /\
   F64.go_eq (sw_ptmp 35 10 infinity infinity) 10 = false).
Proof.
  repeat split; vm_compute; reflexivity.
Qed.

(** C2 (amended). For every S, and every finite T and P at which the
    adiabatic gradient [sw_adtg S T P] is finite, potential temperature at
    the in-situ pressure is the temperature: [sw_ptmp(S, T, P, P) == T]
    with Go's [==].  [PR - P] is [+0], every stage increment is a zero, and
    adding a zero leaves the number unchanged (only the sign of a zero
    temperature may change). *)
Theorem sw_ptmp_same_pressure (S T P : float) :
  is_finite T = true ->
  is_finite P = true ->
  is_finite (sw_adtg S T P) = true ->
  F64.go_eq (sw_ptmp S T P P) T = true.
Proof.
  intros HT HP HG.
  apply F64Facts.sn_go_eq; [|now apply F64Facts.is_finite_not_nan].
  assert (G0 : forall th P', F64.same_number th T -> F64.same_number P' P ->
                 F64.same_number (0 * sw_adtg S th P') 0).
  { intros th P' Hth HP'.
    apply F64Facts.sn_trans with (0 * sw_adtg S T P).
    - apply F64Facts.sn_mul; [apply F64Facts.sn_refl|].
      now apply sw_adtg_same_number.
    - now apply F64Facts.mul_zero_finite. }
  unfold sw_ptmp. rewrite (F64Facts.sub_self P HP). cbv zeta.
  change (0.5 * 0) with 0.
  assert (HP0 : F64.same_number (P + 0) P) by apply F64Facts.add_zero_r.
  (* stage 1 *)
  set (d1 := 0 * sw_adtg S T P).
  assert (Z1 : F64.same_number d1 0)
    by (apply G0; apply F64Facts.sn_refl).
  set (th1 := T + 0.5 * d1).
  assert (TH1 : F64.same_number th1 T).
  { apply F64Facts.sn_trans with (T + 0.5 * 0);
      [unfold th1; repeat F64Facts.sn_step|apply F64Facts.add_zero_r]. }
  (* stage 2 *)
  set (d2 := 0 * sw_adtg S th1 (P + 0)).
  assert (Z2 : F64.same_number d2 0) by (apply G0; assumption).
  set (th2 := th1 + (1 - 1 / sqrt 2) * (d2 - d1)).
  assert (TH2 : F64.same_number th2 T).
  { apply F64Facts.sn_trans with (T + (1 - 1 / sqrt 2) * (0 - 0));
      [unfold th2; repeat F64Facts.sn_step|apply F64Facts.add_zero_r]. }
  set (q2 := (2 - sqrt 2) * d2 + (-2 + 3 / sqrt 2) * d1).
  assert (Q2 : F64.same_number q2 0).
  { apply F64Facts.sn_trans with ((2 - sqrt 2) * 0 + (-2 + 3 / sqrt 2) * 0);
      [unfold q2; repeat F64Facts.sn_step|right; split; reflexivity]. }
  (* stage 3 *)
  set (d3 := 0 * sw_adtg S th2 (P + 0)).
  assert (Z3 : F64.same_number d3 0) by (apply G0; assumption).
  set (th3 := th2 + (1 + 1 / sqrt 2) * (d3 - q2)).
  assert (TH3 : F64.same_number th3 T).
  { apply F64Facts.sn_trans with (T + (1 + 1 / sqrt 2) * (0 - 0));
      [unfold th3; repeat F64Facts.sn_step|apply F64Facts.add_zero_r]. }
  set (q3 := (2 + sqrt 2) * d3 + (-2 - 3 / sqrt 2) * q2).
  assert (Q3 : F64.same_number q3 0).
  { apply F64Facts.sn_trans with ((2 + sqrt 2) * 0 + (-2 - 3 / sqrt 2) * 0);
      [unfold q3; repeat F64Facts.sn_step|right; split; reflexivity]. }
  (* stage 4 *)
  set (d4 := 0 * sw_adtg S th3 (P + 0)).
  assert (Z4 : F64.same_number d4 0) by (apply G0; assumption).
  apply F64Facts.sn_trans with (T + (0 - 2 * 0) / 6);
    [repeat F64Facts.sn_step|apply F64Facts.add_zero_r].
Qed.

Lemma sw_ptmp_same_pressure_witness :
  is_finite 2.48 = true /\
  is_finite 10035.0 = true /\
  is_finite (sw_adtg 34.67 2.48 10035.0) = true /\
  F64.go_eq (sw_ptmp 34.67 2.48 10035.0 10035.0) 2.48 = true.
Proof.
  split; [vm_compute; reflexivity|].
  split; [vm_compute; reflexivity|].
  split; [vm_compute; reflexivity|].
  apply (sw_ptmp_same_pressure 34.67 2.48 10035.0); vm_compute; reflexivity.
Defined.

(** ** Depth *)

(** C7. Depth does not depend on the sign of the latitude: for every
    pressure and latitude, and whatever [math.Sin] computes, [sw_dpth P LAT]
    and [sw_dpth P (-LAT)] are the same float64 value, because the latitude
    is read through [math.Abs] only. *)
Theorem sw_dpth_latitude_sign (math_Sin : float -> float) (P LAT : float) :
  sw_dpth math_Sin P LAT = sw_dpth math_Sin P (- LAT).
Proof.
  unfold sw_dpth. rewrite F64Facts.abs_opp. reflexivity.
Qed.

(** ** Salinity *)

(** C4. For every conductivity [C <= 0] (Go's comparison), every
    temperature and pressure, and whatever [math.Pow] computes, [sw_sal]
    returns exactly 0 without evaluating the series. *)
Theorem sw_sal_nonpositive_conductivity
    (math_Pow : float -> float -> float) (C T P : float) :
  F64.go_le C 0 = true ->
  sw_sal math_Pow C T P = 0.
Proof.
  intros HC. unfold sw_sal. cbv zeta. rewrite HC. reflexivity.
Qed.

Lemma sw_sal_nonpositive_conductivity_witness :
  F64.go_le (-1.5) 0 = true /\
  sw_sal pow_by_mul (-1.5) 20 100 = 0.
Proof.
  split; [vm_compute; reflexivity|].
  apply (sw_sal_nonpositive_conductivity pow_by_mul (-1.5) 20 100).
  vm_compute; reflexivity.
Defined.

(** * Further properties of the package *)

(** ** More IEEE facts *)

Module F64More.
Import F64 F64Facts.

(** NaN goes through every arithmetic operation. *)
Lemma add_nan_l x y : is_nan x = true -> is_nan (x + y) = true.
Proof.
  rewrite !is_nan_spec, add_spec.
  destruct (Prim2SF x); try discriminate. reflexivity.
Qed.

Lemma add_nan_r x y : is_nan y = true -> is_nan (x + y) = true.
Proof.
  rewrite !is_nan_spec, add_spec.
  destruct (Prim2SF y); try discriminate. destruct (Prim2SF x); reflexivity.
Qed.

Lemma mul_nan_l x y : is_nan x = true -> is_nan (x * y) = true.
Proof.
  rewrite !is_nan_spec, mul_spec.
  destruct (Prim2SF x); try discriminate. reflexivity.
Qed.

Lemma mul_nan_r x y : is_nan y = true -> is_nan (x * y) = true.
Proof.
  rewrite !is_nan_spec, mul_spec.
  destruct (Prim2SF y); try discriminate. destruct (Prim2SF x); reflexivity.
Qed.

Lemma sub_nan_l x y : is_nan x = true -> is_nan (x - y) = true.
Proof.
  rewrite !is_nan_spec, sub_spec.
  destruct (Prim2SF x); try discriminate. reflexivity.
Qed.

Lemma div_nan_l x y : is_nan x = true -> is_nan (x / y) = true.
Proof.
  rewrite !is_nan_spec, div_spec.
  destruct (Prim2SF x); try discriminate. reflexivity.
Qed.

(** Propagation through a whole expression, by search. *)
Ltac nan_prop :=
  first [ assumption
        | apply add_nan_l; nan_prop | apply add_nan_r; nan_prop
        | apply sub_nan_l; nan_prop | apply sub_nan_r; nan_prop
        | apply mul_nan_l; nan_prop | apply mul_nan_r; nan_prop
        | apply div_nan_l; nan_prop | apply div_nan_r; nan_prop ].

(** [math.Sqrt] of a negative number is NaN. *)
Lemma sqrt_negative x : go_lt x 0 = true -> is_nan (sqrt x) = true.
Proof.
  unfold go_lt. rewrite ltb_spec, is_nan_spec, sqrt_spec.
  change (Prim2SF 0) with (S754_zero false).
  destruct (Prim2SF x) as [s|s| |s m e]; try destruct s; try discriminate;
    reflexivity.
Qed.

(** A sum that is a number has operands that are numbers. *)
Lemma add_not_nan x y :
  is_nan (x + y) = false -> is_nan x = false /\ is_nan y = false.
Proof.
  rewrite !is_nan_spec, add_spec.
  destruct (Prim2SF x), (Prim2SF y); try discriminate; split; reflexivity.
Qed.

(** A product by a zero is a zero, unless it is NaN. *)
Lemma mul_zero_r_cases x z :
  is_zero z = true -> is_nan (x * z) = false -> is_zero (x * z) = true.
Proof.
  rewrite !is_zero_spec, is_nan_spec, mul_spec.
  destruct (Prim2SF z); try discriminate. intros _.
  destruct (Prim2SF x); try discriminate; reflexivity.
Qed.

(** A zero divided by anything is a zero, unless it is NaN. *)
Lemma zero_div_cases n d :
  is_zero n = true -> is_nan (n / d) = false -> is_zero (n / d) = true.
Proof.
  rewrite !is_zero_spec, is_nan_spec, div_spec.
  destruct (Prim2SF n); try discriminate. intros _.
  destruct (Prim2SF d); try discriminate; reflexivity.
Qed.

(** Adding a zero of either sign does not change the number. *)
Lemma add_zero_any x z : is_zero z = true -> same_number (x + z) x.
Proof.
  rewrite is_zero_spec, same_number_spec, add_spec.
  destruct (Prim2SF z) as [sz|sz| |sz mz ez]; try discriminate. intros _.
  destruct (Prim2SF x) as [s|s| |s m e]; cbn; sf_cases.
Qed.

(** [x - x] is [+0], unless it is NaN. *)
Lemma sub_self_cases x : is_nan (x - x) = false -> x - x = 0.
Proof.
  intros H. apply sub_self. revert H.
  rewrite is_nan_spec, is_finite_spec, sub_spec.
  destruct (Prim2SF x) as [s|s| |s m e]; try destruct s; try discriminate;
    reflexivity.
Qed.

(** What is not finite turns a zero factor into NaN, and [x - x] too. *)
Lemma zero_mul_not_finite y : is_finite y = false -> is_nan (0 * y) = true.
Proof.
  rewrite is_finite_spec, is_nan_spec, mul_spec.
  change (Prim2SF 0) with (S754_zero false).
  destruct (Prim2SF y); try discriminate; reflexivity.
Qed.

Lemma sub_self_not_finite x : is_finite x = false -> is_nan (x - x) = true.
Proof.
  rewrite is_finite_spec, is_nan_spec, sub_spec.
  destruct (Prim2SF x) as [s|s| |s m e]; try destruct s; try discriminate;
    reflexivity.
Qed.

(** [0 / k] is NaN when [k] is a zero or NaN. *)
Lemma zero_div_degenerate k :
  is_nan k = true \/ is_zero k = true -> is_nan (0 / k) = true.
Proof.
  rewrite !is_nan_spec, is_zero_spec, div_spec.
  change (Prim2SF 0) with (S754_zero false).
  destruct (Prim2SF k); intros [H|H]; try discriminate; reflexivity.
Qed.

(** Rounding does not look at the sign. *)
Lemma binary_round_aux_opp s m e l :
  binary_round_aux prec emax (negb s) m e l
  = SFopp (binary_round_aux prec emax s m e l).
Proof.
  unfold binary_round_aux.
  destruct (shr_fexp prec emax m e l) as [mrs' e'].
  destruct (shr_fexp prec emax _ e' loc_Exact) as [mrs'' e''].
  destruct (shr_m mrs''); try reflexivity.
  destruct (Z.leb e'' (emax - prec)); reflexivity.
Qed.

Lemma mul_opp_l x y : (- x) * y = - (x * y).
Proof.
  apply Prim2SF_inj. rewrite opp_spec, !mul_spec, opp_spec.
  destruct (Prim2SF x) as [s|s| |s m e], (Prim2SF y) as [s'|s'| |s' m' e'];
    try reflexivity; cbn [SFopp SF64mul SFmul];
    try (destruct s, s'; reflexivity).
  rewrite <- binary_round_aux_opp. now destruct s, s'.
Qed.

Lemma div_opp_l x y : (- x) / y = - (x / y).
Proof.
  apply Prim2SF_inj. rewrite opp_spec, !div_spec, opp_spec.
  destruct (Prim2SF x) as [s|s| |s m e], (Prim2SF y) as [s'|s'| |s' m' e'];
    try reflexivity; cbn [SFopp SF64div SFdiv];
    try (destruct s, s'; reflexivity).
  destruct (SFdiv_core_binary prec emax (Zpos m) e (Zpos m') e') as [[mz ez] lz].
  rewrite <- binary_round_aux_opp. now destruct s, s'.
Qed.

(** Subtracting from 1, and subtracting a non-zero constant, give identical
    results on the same numbers. *)
Lemma one_sub_same q q' : same_number q q' -> 1 - q = 1 - q'.
Proof.
  intros [->|[Hq Hq']]; [reflexivity|].
  now rewrite !one_sub_zero.
Qed.

Lemma sub_1000_same x x' : same_number x x' -> x - 1000 = x' - 1000.
Proof.
  intros [->|[Hx Hx']]; [reflexivity|].
  revert Hx Hx'. rewrite !is_zero_spec. intros Hx Hx'.
  apply Prim2SF_inj. rewrite !sub_spec.
  destruct (Prim2SF x), (Prim2SF x'); try discriminate. reflexivity.
Qed.

Lemma zero_div_same k k' : same_number k k' -> 0 / k = 0 / k'.
Proof.
  intros [->|[Hk Hk']]; [reflexivity|].
  revert Hk Hk'. rewrite !is_zero_spec. intros Hk Hk'.
  apply Prim2SF_inj. rewrite !div_spec.
  destruct (Prim2SF k), (Prim2SF k'); try discriminate. reflexivity.
Qed.

End F64More.

(** ** Helper lemmas on the functions *)

(** The polynomials in T of the density chain have no division by T: they
    map equal temperatures to equal numbers, whatever the sign of a zero. *)
Lemma sw_dens0_same_number S T T' :
  F64.same_number T T' -> F64.same_number (sw_dens0 S T) (sw_dens0 S T').
Proof.
  intros HT. unfold sw_dens0, sw_smow. cbv zeta. repeat F64Facts.sn_step.
Qed.

Lemma sw_seck_same_number S T T' P :
  F64.same_number T T' -> F64.same_number (sw_seck S T P) (sw_seck S T' P).
Proof.
  intros HT. unfold sw_seck. cbv zeta. repeat F64Facts.sn_step.
Qed.

(** With PR = P every stage of [sw_ptmp] adds a zero to T. *)
Lemma sw_ptmp_same_number (S T P : float) :
  is_finite P = true ->
  is_finite (sw_adtg S T P) = true ->
  F64.same_number (sw_ptmp S T P P) T.
Proof.
  intros HP HG.
  assert (G0 : forall th P', F64.same_number th T -> F64.same_number P' P ->
                 F64.same_number (0 * sw_adtg S th P') 0).
  { intros th P' Hth HP'.
    apply F64Facts.sn_trans with (0 * sw_adtg S T P).
    - apply F64Facts.sn_mul; [apply F64Facts.sn_refl|].
      now apply sw_adtg_same_number.
    - now apply F64Facts.mul_zero_finite. }
  unfold sw_ptmp. rewrite (F64Facts.sub_self P HP). cbv zeta.
  change (0.5 * 0) with 0.
  assert (HP0 : F64.same_number (P + 0) P) by apply F64Facts.add_zero_r.
  set (d1 := 0 * sw_adtg S T P).
  assert (Z1 : F64.same_number d1 0) by (apply G0; apply F64Facts.sn_refl).
  set (th1 := T + 0.5 * d1).
  assert (TH1 : F64.same_number th1 T).
  { apply F64Facts.sn_trans with (T + 0.5 * 0);
      [unfold th1; repeat F64Facts.sn_step|apply F64Facts.add_zero_r]. }
  set (d2 := 0 * sw_adtg S th1 (P + 0)).
  assert (Z2 : F64.same_number d2 0) by (apply G0; assumption).
  set (th2 := th1 + (1 - 1 / sqrt 2) * (d2 - d1)).
  assert (TH2 : F64.same_number th2 T).
  { apply F64Facts.sn_trans with (T + (1 - 1 / sqrt 2) * (0 - 0));
      [unfold th2; repeat F64Facts.sn_step|apply F64Facts.add_zero_r]. }
  set (q2 := (2 - sqrt 2) * d2 + (-2 + 3 / sqrt 2) * d1).
  assert (Q2 : F64.same_number q2 0).
  { apply F64Facts.sn_trans with ((2 - sqrt 2) * 0 + (-2 + 3 / sqrt 2) * 0);
      [unfold q2; repeat F64Facts.sn_step|right; split; reflexivity]. }
  set (d3 := 0 * sw_adtg S th2 (P + 0)).
  assert (Z3 : F64.same_number d3 0) by (apply G0; assumption).
  set (th3 := th2 + (1 + 1 / sqrt 2) * (d3 - q2)).
  assert (TH3 : F64.same_number th3 T).
  { apply F64Facts.sn_trans with (T + (1 + 1 / sqrt 2) * (0 - 0));
      [unfold th3; repeat F64Facts.sn_step|apply F64Facts.add_zero_r]. }
  set (q3 := (2 + sqrt 2) * d3 + (-2 - 3 / sqrt 2) * q2).
  assert (Q3 : F64.same_number q3 0).
  { apply F64Facts.sn_trans with ((2 + sqrt 2) * 0 + (-2 - 3 / sqrt 2) * 0);
      [unfold q3; repeat F64Facts.sn_step|right; split; reflexivity]. }
  set (d4 := 0 * sw_adtg S th3 (P + 0)).
  assert (Z4 : F64.same_number d4 0) by (apply G0; assumption).
  apply F64Facts.sn_trans with (T + (0 - 2 * 0) / 6);
    [repeat F64Facts.sn_step|apply F64Facts.add_zero_r].
Qed.

(** ** Negative salinity *)

(** X1. For every negative salinity (S < 0 in Go) and every temperature,
    [sw_dens0] returns NaN: [math.Sqrt(S)] is NaN and the term in
    [S*sqrt(S)] carries it into the sum. *)
Theorem sw_dens0_negative_salinity (S T : float) :
  F64.go_lt S 0 = true ->
  is_nan (sw_dens0 S T) = true.
Proof.
  intros HS. pose proof (F64More.sqrt_negative S HS) as Hsqrt.
  unfold sw_dens0. cbv zeta. F64More.nan_prop.
Qed.

Lemma sw_dens0_negative_salinity_witness :
  F64.go_lt (-0.5) 0 = true /\ is_nan (sw_dens0 (-0.5) 10) = true.
Proof.
  split; [vm_compute; reflexivity|].
  apply (sw_dens0_negative_salinity (-0.5) 10). vm_compute; reflexivity.
Defined.

(** X2. For every negative salinity, every temperature and pressure,
    [sw_seck] returns NaN. *)
Theorem sw_seck_negative_salinity (S T P : float) :
  F64.go_lt S 0 = true ->
  is_nan (sw_seck S T P) = true.
Proof.
  intros HS. pose proof (F64More.sqrt_negative S HS) as Hsqrt.
  unfold sw_seck. cbv zeta. F64More.nan_prop.
Qed.

Lemma sw_seck_negative_salinity_witness :
  F64.go_lt (-0.5) 0 = true /\ is_nan (sw_seck (-0.5) 10 1000) = true.
Proof.
  split; [vm_compute; reflexivity|].
  apply (sw_seck_negative_salinity (-0.5) 10 1000). vm_compute; reflexivity.
Defined.

(** X3. For every negative salinity, every temperature and pressure,
    [sw_svel] returns NaN. *)
Theorem sw_svel_negative_salinity (S T P : float) :
  F64.go_lt S 0 = true ->
  is_nan (sw_svel S T P) = true.
Proof.
  intros HS. pose proof (F64More.sqrt_negative S HS) as Hsqrt.
  unfold sw_svel. cbv zeta. F64More.nan_prop.
Qed.

Lemma sw_svel_negative_salinity_witness :
  F64.go_lt (-0.5) 0 = true /\ is_nan (sw_svel (-0.5) 10 1000) = true.
Proof.
  split; [vm_compute; reflexivity|].
  apply (sw_svel_negative_salinity (-0.5) 10 1000). vm_compute; reflexivity.
Defined.

(** X4. For every negative salinity, every temperature and pressure, the
    density and everything built on it are NaN: [sw_dens], [sw_sigmat],
    [sw_sigmateta] and [sw_svan]. *)
Theorem sw_dens_chain_negative_salinity (S T P : float) :
  F64.go_lt S 0 = true ->
  is_nan (sw_dens S T P) = true /\
  is_nan (sw_sigmat S T P) = true /\
  is_nan (sw_sigmateta S T P) = true /\
  is_nan (sw_svan S T P) = true.
Proof.
  intros HS. pose proof (F64More.sqrt_negative S HS) as Hsqrt.
  assert (Hdens : forall T' P', is_nan (sw_dens S T' P') = true).
  { intros T' P'. unfold sw_dens. cbv zeta. apply F64More.div_nan_l.
    unfold sw_dens0. cbv zeta. F64More.nan_prop. }
  split; [apply Hdens|].
  split; [unfold sw_sigmat; cbv zeta; apply F64More.sub_nan_l, Hdens|].
  split; [unfold sw_sigmateta; cbv zeta; apply F64More.sub_nan_l, Hdens|].
  unfold sw_svan. cbv zeta.
  apply F64More.sub_nan_l, F64Facts.div_nan_r, Hdens.
Qed.

Lemma sw_dens_chain_negative_salinity_witness :
  F64.go_lt (-0.5) 0 = true /\ is_nan (sw_sigmateta (-0.5) 10 1000) = true.
Proof.
  split; [vm_compute; reflexivity|].
  apply (sw_dens_chain_negative_salinity (-0.5) 10 1000). vm_compute; reflexivity.
Defined.

(** ** Fresh water, reference water, the surface *)

(** X5. At zero salinity the atmospheric density is the density of pure
    water: for every temperature at which [sw_dens0(0, T)] is a number,
    [sw_dens0(0, T) == sw_smow(T)].  (It is NaN when a salinity polynomial
    overflows, since [infinity * 0] is NaN.) *)
Theorem sw_dens0_fresh_water (T : float) :
  is_nan (sw_dens0 0 T) = false ->
  F64.go_eq (sw_dens0 0 T) (sw_smow T) = true.
Proof.
  unfold sw_dens0. cbv zeta. intros H.
  destruct (F64More.add_not_nan _ _ H) as [H1 Hd].
  destruct (F64More.add_not_nan _ _ H1) as [H2 Hc].
  destruct (F64More.add_not_nan _ _ H2) as [Hw Hb].
  apply F64Facts.sn_go_eq; [|exact Hw].
  eapply F64Facts.sn_trans; [apply F64More.add_zero_any; reflexivity|].
  eapply F64Facts.sn_trans;
    [apply F64More.add_zero_any;
     apply F64More.mul_zero_r_cases; [reflexivity|exact Hc]|].
  apply F64More.add_zero_any.
  apply F64More.mul_zero_r_cases; [reflexivity|exact Hb].
Qed.

Lemma sw_dens0_fresh_water_witness :
  is_nan (sw_dens0 0 30) = false /\
  F64.go_eq (sw_dens0 0 30) (sw_smow 30) = true.
Proof.
  split; [vm_compute; reflexivity|].
  apply (sw_dens0_fresh_water 30). vm_compute; reflexivity.
Defined.

(** X6. The specific volume anomaly of the reference water (S = 35, T = 0)
    is exactly 0 at every pressure at which it is a number. *)
Theorem sw_svan_reference_water (P : float) :
  is_nan (sw_svan 35 0 P) = false ->
  sw_svan 35 0 P = 0.
Proof.
  unfold sw_svan. cbv zeta. apply F64More.sub_self_cases.
Qed.

Lemma sw_svan_reference_water_witness :
  is_nan (sw_svan 35 0 10035.0) = false /\ sw_svan 35 0 10035.0 = 0.
Proof.
  split; [vm_compute; reflexivity|].
  apply (sw_svan_reference_water 10035.0). vm_compute; reflexivity.
Defined.

(** X7. At the surface sigma-theta is sigma-t: for every salinity and every
    temperature at which the adiabatic gradient at P = 0 is finite,
    [sw_sigmateta(S, T, 0)] and [sw_sigmat(S, T, 0)] are the same float64
    value. *)
Theorem sw_sigmateta_at_surface (S T : float) :
  is_finite (sw_adtg S T 0) = true ->
  sw_sigmateta S T 0 = sw_sigmat S T 0.
Proof.
  intros HG. unfold sw_sigmateta, sw_sigmat. cbv zeta.
  apply F64More.sub_1000_same.
  pose proof (sw_ptmp_same_number S T 0 eq_refl HG) as Hth.
  set (th := sw_ptmp S T 0 0) in *.
  unfold sw_dens. cbv zeta. change (0 / 10.0) with 0.
  rewrite (F64More.zero_div_same _ _ (sw_seck_same_number S th T 0 Hth)).
  apply F64Facts.sn_div_l. now apply sw_dens0_same_number.
Qed.

Lemma sw_sigmateta_at_surface_witness :
  is_finite (sw_adtg 35 30 0) = true /\
  sw_sigmateta 35 30 0 = sw_sigmat 35 30 0.
Proof.
  split; [vm_compute; reflexivity|].
  apply (sw_sigmateta_at_surface 35 30). vm_compute; reflexivity.
Defined.

(** X8. At zero pressure the depth is a zero: for every latitude and
    whatever [math.Sin] computes, [sw_dpth(0, LAT)] is [+0] or [-0] unless
    it is NaN. *)
Theorem sw_dpth_at_surface (math_Sin : float -> float) (LAT : float) :
  is_nan (sw_dpth math_Sin 0 LAT) = false ->
  is_zero (sw_dpth math_Sin 0 LAT) = true.
Proof.
  unfold sw_dpth. cbv zeta. apply F64More.zero_div_cases. reflexivity.
Qed.

Lemma sw_dpth_at_surface_witness :
  is_nan (sw_dpth (fun x => x) 0 4.0) = false /\
  is_zero (sw_dpth (fun x => x) 0 4.0) = true.
Proof.
  split; [vm_compute; reflexivity|].
  apply (sw_dpth_at_surface (fun x => x) 4.0). vm_compute; reflexivity.
Defined.

(** ** Degenerate inputs *)

(** X9. With PR = P, when the pressure or the adiabatic gradient
    [sw_adtg(S, T, P)] is not finite, [sw_ptmp(S, T, P, P)] is NaN:
    [PR - P] is NaN for an infinite or NaN pressure, and [0 * G] is NaN for
    an infinite or NaN gradient. *)
Theorem sw_ptmp_same_pressure_not_finite (S T P : float) :
  is_finite P && is_finite (sw_adtg S T P) = false ->
  is_nan (sw_ptmp S T P P) = true.
Proof.
  intros H. unfold sw_ptmp. cbv zeta.
  destruct (is_finite P) eqn:HP.
  - cbn in H. rewrite (F64Facts.sub_self P HP).
    pose proof (F64More.zero_mul_not_finite _ H) as Hd.
    F64More.nan_prop.
  - pose proof (F64More.sub_self_not_finite P HP) as Hd.
    F64More.nan_prop.
Qed.

Lemma sw_ptmp_same_pressure_not_finite_witness :
  is_finite 1e200 && is_finite (sw_adtg 35 10 1e200) = false /\
  is_nan (sw_ptmp 35 10 1e200 1e200) = true.
Proof.
  split; [vm_compute; reflexivity|].
  apply (sw_ptmp_same_pressure_not_finite 35 10 1e200). vm_compute; reflexivity.
Defined.

(** X10. At zero pressure, when the secant bulk modulus [sw_seck(S, T, 0)]
    is zero or NaN, [sw_dens(S, T, 0)] is NaN: [P/K] is 0/0 or 0/NaN. *)
Theorem sw_dens_at_zero_pressure_degenerate (S T : float) :
  is_nan (sw_seck S T 0) = true \/ is_zero (sw_seck S T 0) = true ->
  is_nan (sw_dens S T 0) = true.
Proof.
  intros H. unfold sw_dens. cbv zeta. change (0 / 10.0) with 0.
  pose proof (F64More.zero_div_degenerate _ H) as Hq.
  F64More.nan_prop.
Qed.

Lemma sw_dens_at_zero_pressure_degenerate_witness :
  (is_nan (sw_seck 0 (-0x1.cfb2ecfee3fdcp+5) 0) = true \/
   is_zero (sw_seck 0 (-0x1.cfb2ecfee3fdcp+5) 0) = true) /\
  is_nan (sw_dens 0 (-0x1.cfb2ecfee3fdcp+5) 0) = true.
Proof.
  split; [right; vm_compute; reflexivity|].
  apply (sw_dens_at_zero_pressure_degenerate 0 (-0x1.cfb2ecfee3fdcp+5)).
  right. vm_compute; reflexivity.
Defined.

(** ** Temperature scales and salinity *)

(** X11. The IPTS-68 conversions commute with negation: for every
    temperature, [sw_T68conv(-T) = -sw_T68conv(T)] and
    [sw_T90conv(-t, "T68") = -sw_T90conv(t, "T68")], as float64 values. *)
Theorem sw_T68_conversions_odd (T : float) :
  sw_T68conv (- T) = - sw_T68conv T /\
  sw_T90conv (- T) "T68" = - sw_T90conv T "T68".
Proof.
  split.
  - unfold sw_T68conv. apply F64More.mul_opp_l.
  - unfold sw_T90conv. cbn [String.eqb Ascii.eqb Bool.eqb]. cbv zeta.
    apply F64More.div_opp_l.
Qed.

(** X12. [sw_sal] calls [math.Pow] on the base [r] with the six exponents
    0, 0.5, 1, 1.5, 2 and 2.5 only: two power functions that agree on these
    exponents give the same salinity, for every C, T and P. *)
Theorem sw_sal_uses_six_exponents
    (pow1 pow2 : float -> float -> float) (C T P : float) :
  (forall r y : float, In y [0; 0.5; 1; 1.5; 2; 2.5] -> pow1 r y = pow2 r y) ->
  sw_sal pow1 C T P = sw_sal pow2 C T P.
Proof.
  intros Hpow. unfold sw_sal. cbv zeta.
  destruct (F64.go_le C 0); [reflexivity|].
  cbn [fold_left combine seq List.length sal_a]. unfold sal_step.
  change (F64.of_int (Z.of_nat 0) / 2.0) with 0.
  change (F64.of_int (Z.of_nat 1) / 2.0) with 0.5.
  change (F64.of_int (Z.of_nat 2) / 2.0) with 1.
  change (F64.of_int (Z.of_nat 3) / 2.0) with 1.5.
  change (F64.of_int (Z.of_nat 4) / 2.0) with 2.
  change (F64.of_int (Z.of_nat 5) / 2.0) with 2.5.
  rewrite !Hpow by (cbn; tauto). reflexivity.
Qed.

Lemma sw_sal_uses_six_exponents_witness :
  sw_sal pow_by_mul 5.538891 26.99 27.0
  = sw_sal (fun r y => if F64.go_le y 2.5 then pow_by_mul r y else 0)
           5.538891 26.99 27.0.
Proof.
  apply (sw_sal_uses_six_exponents pow_by_mul
           (fun r y => if F64.go_le y 2.5 then pow_by_mul r y else 0)).
  intros r y Hy. cbn in Hy.
  destruct Hy as [<-|[<-|[<-|[<-|[<-|[<-|[]]]]]]]; reflexivity.
Defined.
